(** * The browser client of the analysis demo: [static/script.js]

    The script attaches one click handler to the analyze button.  The handler
    reads the text field, POSTs it to [/analyze] as JSON, and chains three
    continuations on the promise that [fetch] returns: decode the body as
    JSON, render the decoded object into the results panel, and render any
    rejection of the chain as an error line.

    The development embeds that script: the JavaScript values a decoded
    response is made of, the three language operations the handlers apply to
    them (property read, truthiness, string conversion), the two handlers,
    and the page as a state machine whose events are clicks and request
    settlements. *)

From Stdlib Require Import Floats.PrimFloat Floats.SpecFloat Floats.FloatOps Ascii.
From stdpp Require Import gmap strings list pretty.

Set Warnings "-register-all".

(** ** Strings

    JavaScript strings are sequences of 16-bit code units; the model keeps
    the 8-bit ones, which is what [string] holds.  Concatenation is [+:+]. *)

Module Str.

(** [w] occurs in [s] as a contiguous run of characters. *)
Definition substring_of (w s : string) : Prop :=
  ∃ a b, s = a +:+ w +:+ b.

(** The words of [ws] occur in [s] one after the other, without overlap. *)
Fixpoint in_order (ws : list string) (s : string) : Prop :=
  match ws with
  | [] => True
  | w :: ws' => ∃ a b, s = a +:+ w +:+ b ∧ in_order ws' b
  end.

Fixpoint starts_with (w s : string) : bool :=
  match w, s with
  | EmptyString, _ => true
  | String _ _, EmptyString => false
  | String c w', String d s' => bool_decide (c = d) && starts_with w' s'
  end.

(** Decision procedure for [substring_of]. *)
Fixpoint contains (w s : string) : bool :=
  starts_with w s ||
  match s with
  | EmptyString => false
  | String _ s' => contains w s'
  end.

Fixpoint has_char (c : ascii) (s : string) : bool :=
  match s with
  | EmptyString => false
  | String d s' => bool_decide (c = d) || has_char c s'
  end.

End Str.

(** ** The fragment of JavaScript the handlers exercise *)

Module JS.

(** Values.  [response.json()] yields null, booleans, numbers (doubles),
    strings, arrays and plain objects; [undefined] is what reading a missing
    property gives. *)
Inductive value : Type :=
  | VUndefined
  | VNull
  | VBool (b : bool)
  | VNum (x : float)
  | VStr (s : string)
  | VArr (items : list value)
  | VObj (props : gmap string value).

(** An Error instance, by its [name] and [message]: what the runtime throws
    and what a rejected promise of [fetch] or [response.json()] carries. *)
Inductive error_object : Type :=
  | ErrorObject (name message : string).

(** What differs between engines: the decimal rendering of a double
    (Number::toString, the same in all of them but an algorithm of its own),
    the wording of the TypeError raised by a property read on [undefined]
    or [null], given the base value and the property name, and the wording
    of the TypeError raised when an object has no primitive value. *)
Record runtime : Type := {
  Number_toString : float → string;
  TypeError_message : value → string → string;
  ToPrimitive_message : string
}.

(** ToBoolean: the test of [if (data.error)]. *)
Definition ToBoolean (v : value) : bool :=
  match v with
  | VUndefined | VNull => false
  | VBool b => b
  | VNum x => negb (PrimFloat.eqb x 0 || PrimFloat.is_nan x)
  | VStr s => negb (bool_decide (s = ""))
  | VArr _ | VObj _ => true
  end.

Definition nullish (v : value) : bool :=
  match v with
  | VUndefined | VNull => true
  | _ => false
  end.

(** Error.prototype.toString: what [`${error}`] gives for an Error. *)
Definition Error_toString (error : error_object) : string :=
  match error with
  | ErrorObject EmptyString message => message
  | ErrorObject name EmptyString => name
  | ErrorObject name message => name +:+ ": " +:+ message
  end.

(** How the evaluation of an expression completes: with a value, or with a
    thrown error. *)
Inductive completion (A : Type) : Type :=
  | Normal (a : A)
  | Throw (error : error_object).
Global Arguments Normal {A} a.
Global Arguments Throw {A} error.

Global Instance completion_ret : MRet completion := λ A a, Normal a.

Global Instance completion_bind : MBind completion := λ A B k c,
  match c with
  | Normal a => k a
  | Throw error => Throw error
  end.

(** A computation of the script: the member expressions [base.key] it
    evaluated, by the name of the property, oldest first, and how it
    completed.  The log is of the reads the script writes; the lookups the
    engine makes on a value while it converts it to a string ([toString] on
    an object, [join] and the elements of an array) are part of the
    conversion and are not logged. *)
Definition M (A : Type) : Type := list string * completion A.

Global Instance M_ret : MRet M := λ A a, ([], Normal a).

Global Instance M_bind : MBind M := λ A B k m,
  match m with
  | (l, Normal a) => let '(l', r) := k a in (l ++ l', r)
  | (l, Throw error) => (l, Throw error)
  end.

Definition reads {A} (m : M A) : list string := m.1.
Definition result {A} (m : M A) : completion A := m.2.

(** A step in which the script evaluates no member expression: a
    conversion, whose own lookups are on the value converted. *)
Definition lift {A} (c : completion A) : M A := ([], c).

(** The computation [m] run after a read of [key]. *)
Definition after_read {A} (key : string) (m : M A) : M A :=
  (key :: reads m, result m).

(** Array.prototype.join with the comma, given the conversion of an
    element: [undefined] and [null] elements count as the empty string. *)
Definition Array_join (element_string : value → completion string) :
    list value → completion string :=
  fix join (items : list value) : completion string :=
    match items with
    | [] => Normal ""
    | x :: rest =>
        element ← (if nullish x then Normal "" else element_string x);
        match rest with
        | [] => Normal element
        | _ :: _ => tail ← join rest; Normal (element +:+ "," +:+ tail)
        end
    end.

Section Runtime.

Variable rt : runtime.

Definition TypeError (base : value) (key : string) : error_object :=
  ErrorObject "TypeError" (TypeError_message rt base key).

Definition ToPrimitive_error : error_object :=
  ErrorObject "TypeError" (ToPrimitive_message rt).

(** ToString, as a template literal [`${v}`] applies it.  An array joins
    the strings of its elements; a plain object is converted by its
    [toString] method: the inherited one answers [[object Object]]; an own
    property of that name, which in a decoded response is never a function,
    hides it, and the conversion throws. *)
Fixpoint ToString (v : value) : completion string :=
  match v with
  | VUndefined => Normal "undefined"
  | VNull => Normal "null"
  | VBool true => Normal "true"
  | VBool false => Normal "false"
  | VNum x => Normal (Number_toString rt x)
  | VStr s => Normal s
  | VArr items => Array_join ToString items
  | VObj props =>
      match props !! "toString" with
      | Some _ => Throw ToPrimitive_error
      | None => Normal "[object Object]"
      end
  end.

(** The property read [base.key], for the names this script reads
    ([error], the three section names and the five leaf names).  None of
    them is inherited from a built-in prototype or is an own property of a
    primitive or of an array, so the read is the own property of a plain
    object and [undefined] everywhere else. *)
Definition property (base : value) (key : string) : value :=
  match base with
  | VObj props => default VUndefined (props !! key)
  | _ => VUndefined
  end.

(** On [undefined] and [null] the read throws a TypeError. *)
Definition Get (base : value) (key : string) : M value :=
  ([key],
   if nullish base then Throw (TypeError base key)
   else Normal (property base key)).

End Runtime.

End JS.

Export JS.

(** ** The script *)

Module Script.

(** *** The request *)

Record request : Type := {
  url : string;
  method : string;
  headers : list (string * string);
  body : string
}.

Definition dquote : ascii := "034"%char.
Definition backslash : ascii := "092"%char.

Definition hex_digit (n : N) : ascii :=
  default "0"%char (String.get (N.to_nat n) "0123456789abcdef").

(** The escape [\u00XX] of a control character. *)
Definition unicode_escape (c : ascii) : string :=
  let n := N_of_ascii c in
  String backslash
    (String "u" (String "0" (String "0"
       (String (hex_digit (n / 16)) (String (hex_digit (n mod 16)) ""))))).

(** QuoteJSONString, one character at a time: the quote and the backslash
    are escaped with a backslash, backspace, tab, line feed, form feed and
    carriage return have their letter, the other control characters their
    code, and every other character stands for itself. *)
Definition quote_char (c : ascii) : string :=
  let n := N_of_ascii c in
  if bool_decide (n = 8%N) then String backslash "b"
  else if bool_decide (n = 9%N) then String backslash "t"
  else if bool_decide (n = 10%N) then String backslash "n"
  else if bool_decide (n = 12%N) then String backslash "f"
  else if bool_decide (n = 13%N) then String backslash "r"
  else if bool_decide (c = dquote) then String backslash (String dquote "")
  else if bool_decide (c = backslash) then String backslash (String backslash "")
  else if bool_decide (n < 32)%N then unicode_escape c
  else String c "".

Fixpoint quote_chars (s : string) : string :=
  match s with
  | EmptyString => ""
  | String c s' => quote_char c +:+ quote_chars s'
  end.

Definition QuoteJSONString (s : string) : string :=
  String dquote (quote_chars s +:+ String dquote "").

Definition hex_value (c : ascii) : N :=
  let n := N_of_ascii c in
  if bool_decide (48 ≤ n ≤ 57)%N then (n - 48)%N
  else if bool_decide (97 ≤ n ≤ 102)%N then (n - 87)%N
  else 0%N.

(** Reading the characters of a quoted string back, up to the closing
    quote: what a JSON parser makes of the escapes above. *)
Fixpoint unquote_chars (s : string) : string :=
  match s with
  | EmptyString => ""
  | String c s' =>
      if bool_decide (c = dquote) then ""
      else if bool_decide (c = backslash) then
        match s' with
        | EmptyString => ""
        | String e r =>
            if bool_decide (e = "b"%char) then String "008" (unquote_chars r)
            else if bool_decide (e = "t"%char) then String "009" (unquote_chars r)
            else if bool_decide (e = "n"%char) then String "010" (unquote_chars r)
            else if bool_decide (e = "f"%char) then String "012" (unquote_chars r)
            else if bool_decide (e = "r"%char) then String "013" (unquote_chars r)
            else if bool_decide (e = "u"%char) then
              match r with
              | String _ (String _ (String h (String l r'))) =>
                  String (ascii_of_N (16 * hex_value h + hex_value l))
                    (unquote_chars r')
              | _ => ""
              end
            else String e (unquote_chars r)
        end
      else String c (unquote_chars s')
  end.

(** [JSON.stringify({ document: documentInput })]: an object with the one
    property [document], whose value is a string. *)
Definition JSON_stringify_document (documentInput : string) : string :=
  "{" +:+ QuoteJSONString "document" +:+ ":" +:+ QuoteJSONString documentInput +:+ "}".

(** The argument of [fetch] in the click handler. *)
Definition analyze_request (documentInput : string) : request :=
  {| url := "/analyze";
     method := "POST";
     headers := [("Content-Type", "application/json")];
     body := JSON_stringify_document documentInput |}.

(** *** The fragments

    What the pieces appended by each branch of the rendering continuation
    add up to, given the text of the interpolated values. *)

Definition error_fragment (error : string) : string :=
  "<h3>Analysis Results:</h3><p>" +:+ error +:+ "</p>".

Definition success_fragment
    (entities relationships sentiment confidence summary : string) : string :=
  "<h3>Analysis Results:</h3><h4>Entity Extraction:</h4><p>Entities: " +:+ entities
  +:+ "</p><p>Relationships: " +:+ relationships
  +:+ "</p><h4>Sentiment Analysis:</h4><p>Sentiment: " +:+ sentiment
  +:+ "</p><p>Confidence: " +:+ confidence
  +:+ "</p><h4>Summarization:</h4><p>Summary: " +:+ summary +:+ "</p>".

(** The labels of the five leaf fields and the names of the three
    sections. *)
Definition labels : list string :=
  ["Entities"; "Relationships"; "Sentiment"; "Confidence"; "Summary"].

Definition section_names : list string :=
  ["entity_extraction"; "sentiment_analysis"; "summarization"].

(** *** The continuations *)

Section Handlers.

Variable rt : runtime.

(** [.then(data => { ... })] up to the assignment to [innerHTML]: the
    string [results] it has built when it completes normally.  Each
    [results += `...`] reads its properties left to right, converts the
    value to a string and appends. *)
Definition then_handler (data : value) : M string :=
  let results := "<h3>Analysis Results:</h3>" in
  error ← Get rt data "error";
  if ToBoolean error then
    error ← Get rt data "error";
    error ← lift (ToString rt error);
    let results := results +:+ ("<p>" +:+ error +:+ "</p>") in
    mret results
  else
    let results := results +:+ "<h4>Entity Extraction:</h4>" in
    entity_extraction ← Get rt data "entity_extraction";
    entities ← Get rt entity_extraction "entities";
    entities ← lift (ToString rt entities);
    let results := results +:+ ("<p>Entities: " +:+ entities +:+ "</p>") in
    entity_extraction ← Get rt data "entity_extraction";
    relationships ← Get rt entity_extraction "relationships";
    relationships ← lift (ToString rt relationships);
    let results := results +:+ ("<p>Relationships: " +:+ relationships +:+ "</p>") in
    let results := results +:+ "<h4>Sentiment Analysis:</h4>" in
    sentiment_analysis ← Get rt data "sentiment_analysis";
    sentiment ← Get rt sentiment_analysis "sentiment";
    sentiment ← lift (ToString rt sentiment);
    let results := results +:+ ("<p>Sentiment: " +:+ sentiment +:+ "</p>") in
    sentiment_analysis ← Get rt data "sentiment_analysis";
    confidence ← Get rt sentiment_analysis "confidence";
    confidence ← lift (ToString rt confidence);
    let results := results +:+ ("<p>Confidence: " +:+ confidence +:+ "</p>") in
    let results := results +:+ "<h4>Summarization:</h4>" in
    summarization ← Get rt data "summarization";
    summary ← Get rt summarization "summary";
    summary ← lift (ToString rt summary);
    let results := results +:+ ("<p>Summary: " +:+ summary +:+ "</p>") in
    mret results.

(** How the interpolation [`${data.section.leaf}`] completes. *)
Definition interpolation (data : value) (section leaf : string) : completion string :=
  if nullish (property data section) then Throw (TypeError rt (property data section) leaf)
  else ToString rt (property (property data section) leaf).

(** How the interpolation of the leaf [key] of a section object completes:
    with the text of its value, and with [undefined] when the section has
    no such property. *)
Definition leaf_text (section : gmap string value) (key : string) : completion string :=
  match section !! key with
  | Some v => ToString rt v
  | None => Normal "undefined"
  end.

(** [.catch(error => { ... })]: the string it assigns to [innerHTML]. *)
Definition catch_handler (error : error_object) : string :=
  "<p>Error: " +:+ Error_toString error +:+ "</p>".

(** How the request of one click settles. *)
Inductive outcome : Type :=
  | FetchRejected (reason : error_object)   (* the promise of [fetch] rejects *)
  | BodyRejected (reason : error_object)    (* [response.json()] rejects *)
  | Parsed (data : value).                  (* [response.json()] resolves *)

(** The promise chain [fetch(..).then(json).then(render).catch(report)]:
    the string assigned to the [innerHTML] of the results element.  A
    rejection skips the [then] continuations; an exception thrown by the
    rendering continuation rejects its promise and reaches [catch] too. *)
Definition settle (o : outcome) : string :=
  match o with
  | FetchRejected reason | BodyRejected reason => catch_handler reason
  | Parsed data =>
      match result (then_handler data) with
      | Normal results => results
      | Throw error => catch_handler error
      end
  end.

(** *** The page *)

(** The two elements the script touches. *)
Record page : Type := {
  document_value : string;      (* [document.getElementById('document').value] *)
  results_innerHTML : string    (* last string assigned to the results element *)
}.

(** The page, the requests issued so far (oldest first) and the positions
    in that list of the requests that have not settled. *)
Record world : Type := {
  dom : page;
  sent : list request;
  in_flight : gset nat
}.

Inductive event : Type :=
  | Input (text : string)            (* the user edits the text field *)
  | Click                            (* the click listener runs *)
  | Settle (id : nat) (o : outcome). (* the chain of request [id] runs *)

Definition click_handler (w : world) : world :=
  let documentInput := document_value (dom w) in
  {| dom := dom w;
     sent := sent w ++ [analyze_request documentInput];
     in_flight := {[length (sent w)]} ∪ in_flight w |}.

Definition set_results (html : string) (p : page) : page :=
  {| document_value := document_value p; results_innerHTML := html |}.

(** One turn of the event loop; [None] when the event cannot happen (a
    request settles once, and only after it was sent). *)
Definition step (w : world) (ev : event) : option world :=
  match ev with
  | Input text =>
      Some {| dom := {| document_value := text;
                        results_innerHTML := results_innerHTML (dom w) |};
              sent := sent w;
              in_flight := in_flight w |}
  | Click => Some (click_handler w)
  | Settle id o =>
      if bool_decide (id ∈ in_flight w) then
        Some {| dom := set_results (settle o) (dom w);
                sent := sent w;
                in_flight := in_flight w ∖ {[id]} |}
      else None
  end.

Fixpoint run (w : world) (evs : list event) : option world :=
  match evs with
  | [] => Some w
  | ev :: evs' => w' ← step w ev; run w' evs'
  end.

(** The outcome of the last settlement of a trace, if any request settled. *)
Fixpoint last_settled (evs : list event) : option outcome :=
  match evs with
  | [] => None
  | ev :: evs' =>
      match last_settled evs' with
      | Some o => Some o
      | None => match ev with Settle _ o => Some o | _ => None end
      end
  end.

End Handlers.

End Script.

Export Script.

(** ** A runtime and responses to evaluate the script on *)

Module Sample.

(** Number::toString on the doubles that are zero, not a number, infinite,
    or an integer of magnitude below 2^53, where the shortest decimal that
    reads back as the double is the integer's own.  The other doubles are
    outside this sample: its answer there is the integer part, not the
    runtime's, and nothing below renders one. *)
Definition Number_toString (x : float) : string :=
  match Prim2SF x with
  | S754_zero _ => "0"
  | S754_nan => "NaN"
  | S754_infinity false => "Infinity"
  | S754_infinity true => "-Infinity"
  | S754_finite sign m e =>
      let magnitude := (if bool_decide (0 ≤ e) then Z.pos m * 2 ^ e else Z.pos m / 2 ^ (- e))%Z in
      (if sign then "-" else "") +:+ pretty magnitude
  end.

(** The wording of V8. *)
Definition TypeError_message (base : value) (key : string) : string :=
  "Cannot read properties of "
    +:+ match base with VNull => "null" | _ => "undefined" end
    +:+ " (reading '" +:+ key +:+ "')".

Definition V8 : runtime :=
  {| JS.Number_toString := Number_toString;
     JS.TypeError_message := TypeError_message;
     JS.ToPrimitive_message := "Cannot convert object to primitive value" |}.

(** The success response of the specification's example. *)
Definition apple_entity_extraction : gmap string value :=
  list_to_map [("entities", VStr "Apple"); ("relationships", VStr "none")].

Definition apple_sentiment_analysis : gmap string value :=
  list_to_map [("sentiment", VStr "positive"); ("confidence", VStr "0.92")].

Definition apple_summarization : gmap string value :=
  list_to_map [("summary", VStr "Apple profits rose.")].

Definition apple_props : gmap string value :=
  list_to_map [("entity_extraction", VObj apple_entity_extraction);
               ("sentiment_analysis", VObj apple_sentiment_analysis);
               ("summarization", VObj apple_summarization)].

Definition apple : value := VObj apple_props.

(** A success response that lacks [relationships] and [confidence] and has
    an empty summarization section. *)
Definition sparse_entity_extraction : gmap string value :=
  list_to_map [("entities", VStr "Apple")].

Definition sparse_sentiment_analysis : gmap string value :=
  list_to_map [("sentiment", VStr "positive")].

Definition sparse_props : gmap string value :=
  list_to_map [("entity_extraction", VObj sparse_entity_extraction);
               ("sentiment_analysis", VObj sparse_sentiment_analysis);
               ("summarization", VObj ∅)].

(** Error responses: a message that names a field label, an empty message
    (alone, and on top of the sections of the example), and [null]. *)
Definition summary_error_props : gmap string value :=
  list_to_map [("error", VStr "Summary unavailable")].

Definition empty_error_props : gmap string value :=
  list_to_map [("error", VStr "")].

Definition empty_error_apple_props : gmap string value :=
  <["error" := VStr ""]> apple_props.

Definition null_error_props : gmap string value :=
  list_to_map [("error", VNull)].

(** An error that is an object with a [toString] property of its own. *)
Definition opaque_error : value :=
  VObj (list_to_map [("toString", VNum 1)]).

Definition opaque_error_props : gmap string value :=
  list_to_map [("error", opaque_error)].

(** A response without [error] whose summarization section is missing. *)
Definition no_summarization_props : gmap string value :=
  delete "summarization" apple_props.

Definition initial : world :=
  {| dom := {| document_value := ""; results_innerHTML := "" |};
     sent := [];
     in_flight := ∅ |}.

(** The page after one click. *)
Definition one_in_flight : world := click_handler initial.

(** What [fetch] rejects with when the server cannot be reached. *)
Definition failed_to_fetch : error_object := ErrorObject "TypeError" "Failed to fetch".

(** Two requests settle in the reverse of the order they were sent in: the
    second is answered with the example, then the first fails. *)
Definition reversed : list event :=
  [Click; Click; Settle 1 (Parsed apple); Settle 0 (FetchRejected failed_to_fetch)].

End Sample.

(** ** The page over a whole trace *)

Module Trace.

(** The text the field holds at each click of a trace, in the order of the
    clicks, given the text it holds at the start. *)
Fixpoint clicked_texts (text : string) (evs : list event) : list string :=
  match evs with
  | [] => []
  | Input text' :: evs' => clicked_texts text' evs'
  | Click :: evs' => text :: clicked_texts text evs'
  | Settle _ _ :: evs' => clicked_texts text evs'
  end.

(** The text the user typed last, or the text at the start. *)
Fixpoint last_input (text : string) (evs : list event) : string :=
  match evs with
  | [] => text
  | Input text' :: evs' => last_input text' evs'
  | _ :: evs' => last_input text evs'
  end.

Fixpoint clicks (evs : list event) : nat :=
  match evs with
  | [] => 0
  | Click :: evs' => S (clicks evs')
  | _ :: evs' => clicks evs'
  end.

Fixpoint settlements (evs : list event) : nat :=
  match evs with
  | [] => 0
  | Settle _ _ :: evs' => S (settlements evs')
  | _ :: evs' => settlements evs'
  end.

(** The requests in flight are requests that were sent. *)
Definition well_formed (w : world) : Prop :=
  ∀ id, id ∈ in_flight w → id < length (sent w).

End Trace.

(** ** The document: attaching the click listener

    The script registers a listener for [DOMContentLoaded]; each time that
    listener runs it attaches one more click listener to the analyze
    button, a fresh function each time.  A click on the button runs the
    listeners attached so far, one after the other. *)

Module Document.

Record document : Type := {
  page_world : world;
  click_listeners : nat     (* listeners attached to the analyze button *)
}.

Inductive document_event : Type :=
  | DOMContentLoaded                   (* the document has been parsed *)
  | ButtonClick                        (* the user clicks the analyze button *)
  | Edit (text : string)               (* the user edits the text field *)
  | Settled (id : nat) (o : outcome).  (* the chain of request [id] runs *)

Section Dispatch.

Variable rt : runtime.

Definition dispatch (d : document) (ev : document_event) : option document :=
  match ev with
  | DOMContentLoaded =>
      Some {| page_world := page_world d;
              click_listeners := S (click_listeners d) |}
  | ButtonClick =>
      Some {| page_world := Nat.iter (click_listeners d) click_handler (page_world d);
              click_listeners := click_listeners d |}
  | Edit text =>
      w ← step rt (page_world d) (Input text);
      Some {| page_world := w; click_listeners := click_listeners d |}
  | Settled id o =>
      w ← step rt (page_world d) (Settle id o);
      Some {| page_world := w; click_listeners := click_listeners d |}
  end.

Fixpoint run_document (d : document) (evs : list document_event) : option document :=
  match evs with
  | [] => Some d
  | ev :: evs' => d' ← dispatch d ev; run_document d' evs'
  end.

End Dispatch.

(** The events of the page that a trace of the document amounts to once
    one click listener is attached. *)
Fixpoint page_events (evs : list document_event) : list event :=
  match evs with
  | [] => []
  | DOMContentLoaded :: evs' => page_events evs'
  | ButtonClick :: evs' => Click :: page_events evs'
  | Edit text :: evs' => Input text :: page_events evs'
  | Settled id o :: evs' => Settle id o :: page_events evs'
  end.

Fixpoint loads (evs : list document_event) : nat :=
  match evs with
  | [] => 0
  | DOMContentLoaded :: evs' => S (loads evs')
  | _ :: evs' => loads evs'
  end.

(** The document before the script's first listener has run. *)
Definition fresh (w : world) : document :=
  {| page_world := w; click_listeners := 0 |}.

End Document.

(** ** Shapes of the panel, strings of values *)

Module Shape.

Definition is_error_fragment (html : string) : Prop :=
  ∃ text, html = error_fragment text.

Definition is_success_fragment (html : string) : Prop :=
  ∃ entities relationships sentiment confidence summary,
    html = success_fragment entities relationships sentiment confidence summary.

Definition is_catch_line (html : string) : Prop :=
  ∃ error, html = catch_handler error.

(** A value that is neither [undefined] or [null] nor a plain object: a
    boolean, a number, a string or an array. *)
Definition primitive_or_array (v : value) : bool :=
  match v with
  | VBool _ | VNum _ | VStr _ | VArr _ => true
  | _ => false
  end.

(** No object that the conversion reaches, the value itself or an element
    of nested arrays, holds a [toString] property of its own. *)
Fixpoint stringifiable (v : value) : bool :=
  match v with
  | VArr items => forallb stringifiable items
  | VObj props => bool_decide (props !! "toString" = None)
  | _ => true
  end.

End Shape.

(** ** Characters of the request body *)

Module Wire.

Fixpoint all_chars (P : ascii → bool) (s : string) : bool :=
  match s with
  | EmptyString => true
  | String c s' => P c && all_chars P s'
  end.

Definition not_control (c : ascii) : bool :=
  bool_decide (32 ≤ N_of_ascii c)%N.

(** An 8-bit character that QuoteJSONString leaves alone.  Of the 16-bit
    code units it also escapes the lone surrogates, which a [string] does
    not hold. *)
Definition plain_char (c : ascii) : bool :=
  not_control c && negb (bool_decide (c = dquote)) && negb (bool_decide (c = backslash)).

End Wire.

(** ** More responses and traces to evaluate the script on *)

Module Cases.

(** A body that decodes to a string, as a proxy's error page quoted as JSON
    would. *)
Definition string_response : value := VStr "Bad Gateway".

(** Sections that are present but are not objects. *)
Definition flat_props : gmap string value :=
  list_to_map [("entity_extraction", VStr "Apple");
               ("sentiment_analysis", VNum 1);
               ("summarization", VArr [])].

(** An array of strings, with a hole and a nested array. *)
Definition entity_list : value :=
  VArr [VStr "Apple"; VNull; VArr [VStr "Tim Cook"; VStr "CEO"]].

(** The user types, clicks, retypes, clicks again; the first request is
    answered, the second fails. *)
Definition session : list event :=
  [Input "first"; Click; Input "second"; Click;
   Settle 0 (Parsed Sample.apple);
   Settle 1 (FetchRejected Sample.failed_to_fetch)].

(** The same session on the document, with two clicks before it loaded. *)
Definition early_clicks : list Document.document_event :=
  [Document.ButtonClick; Document.Edit "hasty"; Document.ButtonClick].

Definition loaded_session : list Document.document_event :=
  [Document.ButtonClick; Document.Edit "first"; Document.ButtonClick;
   Document.Edit "second"; Document.ButtonClick;
   Document.Settled 0 (Parsed Sample.apple);
   Document.Settled 1 (FetchRejected Sample.failed_to_fetch)].

End Cases.

(** * Properties *)

(** ** Concatenation and occurrence *)

Module StrFacts.
Import Str.

#[local] Arguments String.append !_ _ / : simpl nomatch.

Lemma app_nil_r (s : string) : s +:+ "" = s.
Proof. induction s as [|c s IH]; [done|]. cbn. by rewrite IH. Qed.

Lemma app_assoc (a b c : string) : (a +:+ b) +:+ c = a +:+ b +:+ c.
Proof. induction a as [|x a IH]; [done|]. cbn. by rewrite IH. Qed.

Lemma substring_of_here (a w b : string) : substring_of w (a +:+ w +:+ b).
Proof. by exists a, b. Qed.

Lemma in_order_head (w : string) (ws : list string) (s : string) :
  in_order (w :: ws) s → substring_of w s.
Proof. intros (a & b & -> & _). by exists a, b. Qed.

Lemma in_order_tail (w : string) (ws : list string) (s : string) :
  in_order (w :: ws) s → in_order ws s.
Proof.
  intros (a & b & -> & Hb).
  destruct ws as [|w' ws]; [done|].
  destruct Hb as (a' & b' & -> & Hb').
  exists (a +:+ w +:+ a'), b'. split; [|done].
  by rewrite !app_assoc.
Qed.

(** Every word of an ordered occurrence occurs. *)
Lemma in_order_each (ws : list string) (s : string) :
  in_order ws s → Forall (λ w, substring_of w s) ws.
Proof.
  induction ws as [|w ws IH]; intros H; constructor.
  - by eapply in_order_head.
  - apply IH. by eapply in_order_tail.
Qed.

Lemma starts_with_spec (w s : string) :
  starts_with w s = true ↔ ∃ b, s = w +:+ b.
Proof.
  revert s. induction w as [|c w IH]; intros s; cbn.
  - split; [intros _; by exists s | done].
  - destruct s as [|d s]; cbn.
    + split; [done | by intros [b ?]].
    + rewrite andb_true_iff, bool_decide_eq_true, IH. split.
      * intros [-> [b ->]]. by exists b.
      * intros [b [= -> ->]]. eauto.
Qed.

Lemma contains_spec (w s : string) :
  contains w s = true ↔ substring_of w s.
Proof.
  induction s as [|d s IH]; cbn.
  - rewrite orb_false_r, starts_with_spec. split.
    + intros [b ->]. by exists "", b.
    + intros (a & b & H). destruct a; [by exists b|done].
  - rewrite orb_true_iff, starts_with_spec, IH. split.
    + intros [[b ->]|(a & b & ->)]; [by exists "", b|by exists (String d a), b].
    + intros (a & b & H). destruct a as [|c a]; [left; by exists b|].
      right. injection H as -> ->. by exists a, b.
Qed.

Lemma not_contains (w s : string) :
  contains w s = false → ¬ substring_of w s.
Proof. rewrite <-contains_spec. by intros ->. Qed.

(** A word without the character [c] that starts inside [x +:+ String c y]
    at the first position ends before [c]. *)
Lemma prefix_before_char (c : ascii) (w x y b : string) :
  has_char c w = false →
  x +:+ String c y = w +:+ b →
  ∃ x', x = w +:+ x'.
Proof.
  revert x. induction w as [|d w IH]; intros x Hc H; [by exists x|].
  cbn in Hc. apply orb_false_iff in Hc as [Hd Hc].
  apply bool_decide_eq_false in Hd.
  destruct x as [|e x]; cbn in H; injection H as -> H; [done|].
  destruct (IH x Hc H) as [x' ->]. by exists x'.
Qed.

(** A word without the character [c] does not straddle an occurrence of
    [c]. *)
Lemma substring_of_split (c : ascii) (w x y : string) :
  has_char c w = false →
  substring_of w (x +:+ String c y) →
  substring_of w x ∨ substring_of w y.
Proof.
  intros Hc (a & b & H). revert x H.
  induction a as [|e a IH]; intros x H.
  - left. destruct (prefix_before_char c w x y b Hc H) as [x' ->].
    by exists "", x'.
  - destruct x as [|d x]; cbn in H; injection H as -> H.
    + right. by exists a, b.
    + destruct (IH x H) as [(a' & b' & ->)|?]; [left|by right].
      by exists (String e a'), b'.
Qed.

End StrFacts.

(** ** The rendering continuation, branch by branch *)

Module HandlerFacts.
Import Str StrFacts.

Lemma bind_Normal {A B} (a : A) (k : A → completion B) : Normal a ≫= k = k a.
Proof. done. Qed.

Lemma result_bind {A B} (m : M A) (k : A → M B) :
  result (m ≫= k) = result m ≫= λ a, result (k a).
Proof.
  destruct m as [l [a|error]]; [|done].
  unfold mbind at 1, M_bind, result. cbn. by destruct (k a).
Qed.

Section WithRuntime.

Variable rt : runtime.

Lemma result_Get (base : value) (key : string) :
  nullish base = false → result (Get rt base key) = Normal (property base key).
Proof. intros H. unfold Get, result. cbn. by rewrite H. Qed.

Lemma bind_Get {A} (base : value) (key : string) (k : value → M A) :
  nullish base = false →
  Get rt base key ≫= k = after_read key (k (property base key)).
Proof.
  intros H. unfold Get. rewrite H.
  unfold mbind, M_bind, after_read, reads, result.
  by destruct (k (property base key)).
Qed.

Lemma bind_Get_throw {A} (base : value) (key : string) (k : value → M A) :
  nullish base = true →
  Get rt base key ≫= k = ([key], Throw (TypeError rt base key)).
Proof. intros H. unfold Get. by rewrite H. Qed.

(** A response that is [undefined] or [null]: the first read throws. *)
Lemma then_handler_nullish (data : value) :
  nullish data = true →
  then_handler rt data = (["error"], Throw (TypeError rt data "error")).
Proof. intros H. unfold then_handler. by rewrite bind_Get_throw. Qed.

(** The branch of a truthy [data.error]: two reads of [error], and the
    error fragment if the value has a string. *)
Lemma then_handler_error (data : value) :
  nullish data = false →
  ToBoolean (property data "error") = true →
  then_handler rt data =
    (["error"; "error"],
     text ← ToString rt (property data "error"); Normal (error_fragment text)).
Proof.
  intros Hd He. unfold then_handler.
  rewrite (bind_Get _ _ _ Hd), He, (bind_Get _ _ _ Hd).
  by destruct (ToString rt (property data "error")).
Qed.

(** The reads and the conversion of one [`${data.section.leaf}`]. *)
Lemma result_leaf {A} (data : value) (section leaf : string) (k : string → M A) :
  nullish data = false →
  result (s ← Get rt data section; v ← Get rt s leaf; t ← lift (ToString rt v); k t)
  = interpolation rt data section leaf ≫= λ t, result (k t).
Proof.
  intros Hd. rewrite result_bind, (result_Get _ _ Hd), bind_Normal.
  unfold interpolation. destruct (nullish (property data section)) eqn:Hs.
  - by rewrite (bind_Get_throw _ _ _ Hs).
  - by rewrite result_bind, (result_Get _ _ Hs), bind_Normal, result_bind.
Qed.

(** The branch of a falsy [data.error]: the five interpolations in the
    order of the page, the first that throws ending the continuation, and
    the success fragment of their five strings otherwise. *)
Lemma then_handler_sections (data : value) :
  nullish data = false →
  ToBoolean (property data "error") = false →
  result (then_handler rt data) =
    (entities ← interpolation rt data "entity_extraction" "entities";
     relationships ← interpolation rt data "entity_extraction" "relationships";
     sentiment ← interpolation rt data "sentiment_analysis" "sentiment";
     confidence ← interpolation rt data "sentiment_analysis" "confidence";
     summary ← interpolation rt data "summarization" "summary";
     Normal (success_fragment entities relationships sentiment confidence summary)).
Proof.
  intros Hd He. unfold then_handler.
  rewrite result_bind, (result_Get _ _ Hd), bind_Normal, He.
  rewrite (result_leaf _ _ _ _ Hd).
  destruct (interpolation rt data "entity_extraction" "entities"); [|done].
  rewrite !bind_Normal, (result_leaf _ _ _ _ Hd).
  destruct (interpolation rt data "entity_extraction" "relationships"); [|done].
  rewrite !bind_Normal, (result_leaf _ _ _ _ Hd).
  destruct (interpolation rt data "sentiment_analysis" "sentiment"); [|done].
  rewrite !bind_Normal, (result_leaf _ _ _ _ Hd).
  destruct (interpolation rt data "sentiment_analysis" "confidence"); [|done].
  rewrite !bind_Normal, (result_leaf _ _ _ _ Hd).
  destruct (interpolation rt data "summarization" "summary"); [|done].
  rewrite !bind_Normal. unfold mret, M_ret, result. cbn [snd].
  f_equal. unfold success_fragment. rewrite !app_assoc. reflexivity.
Qed.

(** Induction on values, the elements of an array included. *)
Lemma value_ind_items (P : value → Prop) :
  P VUndefined → P VNull → (∀ b, P (VBool b)) → (∀ x, P (VNum x)) →
  (∀ s, P (VStr s)) →
  (∀ items, Forall P items → P (VArr items)) →
  (∀ props, P (VObj props)) →
  ∀ v, P v.
Proof.
  intros Hu Hn Hb Hx Hs Ha Ho. fix IH 1.
  intros [| |b|x|s|items|props];
    [exact Hu|exact Hn|apply Hb|apply Hx|apply Hs| |apply Ho].
  apply Ha. induction items as [|x items IHitems]; constructor.
  - apply IH.
  - exact IHitems.
Qed.

Lemma Array_join_throws (f : value → completion string) (P : error_object → Prop)
    (items : list value) (error : error_object) :
  Forall (λ x, ∀ error, f x = Throw error → P error) items →
  Array_join f items = Throw error → P error.
Proof.
  induction 1 as [|x items Hx _ IH]; cbn; [discriminate|].
  destruct (nullish x).
  - rewrite bind_Normal. destruct items; [discriminate|].
    destruct (Array_join f (_ :: _)); [discriminate|].
    intros [= <-]. by apply IH.
  - destruct (f x) eqn:Hfx.
    + rewrite bind_Normal. destruct items; [discriminate|].
      destruct (Array_join f (_ :: _)); [discriminate|].
      intros [= <-]. by apply IH.
    + intros [= <-]. by apply Hx.
Qed.

(** A conversion that throws throws the TypeError of an object without a
    primitive value. *)
Lemma ToString_throws (v : value) (error : error_object) :
  ToString rt v = Throw error → error = ToPrimitive_error rt.
Proof.
  revert error. induction v as [| |[]| | |items IH|props] using value_ind_items;
    intros error; cbn; try discriminate.
  - exact (Array_join_throws _ (λ e, e = ToPrimitive_error rt) _ _ IH).
  - destruct (props !! "toString"); [by intros [= <-]|discriminate].
Qed.

End WithRuntime.

End HandlerFacts.

(** ** What the results panel shows for a decoded response *)

Module Rendering.
Import Str StrFacts HandlerFacts.

#[local] Arguments String.append !_ _ / : simpl nomatch.

(** The headers and the five texts occur in a success fragment in the order
    of the page. *)
Lemma success_fragment_in_order
    (entities relationships sentiment confidence summary : string) :
  in_order ["<h4>Entity Extraction:</h4>"; entities; relationships;
            "<h4>Sentiment Analysis:</h4>"; sentiment; confidence;
            "<h4>Summarization:</h4>"; summary]
    (success_fragment entities relationships sentiment confidence summary).
Proof.
  unfold success_fragment.
  exists "<h3>Analysis Results:</h3>"; eexists; split; [reflexivity|].
  exists "<p>Entities: "; eexists; split; [reflexivity|].
  exists "</p><p>Relationships: "; eexists; split; [reflexivity|].
  exists "</p>"; eexists; split; [reflexivity|].
  exists "<p>Sentiment: "; eexists; split; [reflexivity|].
  exists "</p><p>Confidence: "; eexists; split; [reflexivity|].
  exists "</p>"; eexists; split; [reflexivity|].
  exists "<p>Summary: ", "</p>"; split; [reflexivity|done].
Qed.

(** The line of the [catch] continuation is neither fragment of the
    rendering continuation, and the two fragments differ. *)
Lemma catch_handler_not_error_fragment (error : error_object) (text : string) :
  catch_handler error ≠ error_fragment text.
Proof. unfold catch_handler, error_fragment. cbn. discriminate. Qed.

Lemma catch_handler_not_success_fragment (error : error_object)
    (entities relationships sentiment confidence summary : string) :
  catch_handler error ≠
    success_fragment entities relationships sentiment confidence summary.
Proof. unfold catch_handler, success_fragment. cbn. discriminate. Qed.

Lemma success_fragment_not_error_fragment
    (entities relationships sentiment confidence summary text : string) :
  success_fragment entities relationships sentiment confidence summary ≠
    error_fragment text.
Proof. unfold success_fragment, error_fragment. cbn. discriminate. Qed.

Section WithRuntime.

Variable rt : runtime.

Lemma settle_normal (data : value) (results : string) :
  result (then_handler rt data) = Normal results →
  settle rt (Parsed data) = results.
Proof. intros H. unfold settle. by rewrite H. Qed.

Lemma settle_throw (data : value) (error : error_object) :
  result (then_handler rt data) = Throw error →
  settle rt (Parsed data) = catch_handler error.
Proof. intros H. unfold settle. by rewrite H. Qed.

(** The leaf of a section that is an object. *)
Lemma interpolation_object (props m : gmap string value) (section leaf : string) :
  props !! section = Some (VObj m) →
  interpolation rt (VObj props) section leaf = leaf_text rt m leaf.
Proof.
  intros H. unfold interpolation, leaf_text. cbn [property]. rewrite H. cbn.
  by destruct (m !! leaf).
Qed.

(** The leaf of a section that is missing. *)
Lemma interpolation_missing (props : gmap string value) (section leaf : string) :
  props !! section = None →
  interpolation rt (VObj props) section leaf = Throw (TypeError rt VUndefined leaf).
Proof. intros H. unfold interpolation. cbn [property]. by rewrite H. Qed.

(** An interpolation throws nothing but a TypeError. *)
Lemma interpolation_throws (data : value) (section leaf : string) (error : error_object) :
  interpolation rt data section leaf = Throw error →
  ∃ message, error = ErrorObject "TypeError" message.
Proof.
  unfold interpolation. destruct (nullish (property data section)).
  - intros [= <-]. by eexists.
  - intros ->%ToString_throws. by eexists.
Qed.

(** With a falsy or absent [error] and three sections that are objects
    whose leaves have a string, the continuation completes with the success
    fragment. *)
Lemma then_handler_objects (props ee sa sm : gmap string value)
    (entities relationships sentiment confidence summary : string) :
  ToBoolean (default VUndefined (props !! "error")) = false →
  props !! "entity_extraction" = Some (VObj ee) →
  props !! "sentiment_analysis" = Some (VObj sa) →
  props !! "summarization" = Some (VObj sm) →
  leaf_text rt ee "entities" = Normal entities →
  leaf_text rt ee "relationships" = Normal relationships →
  leaf_text rt sa "sentiment" = Normal sentiment →
  leaf_text rt sa "confidence" = Normal confidence →
  leaf_text rt sm "summary" = Normal summary →
  result (then_handler rt (VObj props)) =
    Normal (success_fragment entities relationships sentiment confidence summary).
Proof.
  intros He H1 H2 H3 L1 L2 L3 L4 L5.
  rewrite (then_handler_sections rt (VObj props) eq_refl He).
  rewrite !(interpolation_object _ _ _ _ H1), !(interpolation_object _ _ _ _ H2),
    !(interpolation_object _ _ _ _ H3).
  by rewrite L1, L2, L3, L4, L5.
Qed.

(** In the branch of the sections the panel gets a success fragment or the
    line of [catch]. *)
Lemma settle_sections (data : value) :
  nullish data = false →
  ToBoolean (property data "error") = false →
  (∃ entities relationships sentiment confidence summary,
     settle rt (Parsed data)
     = success_fragment entities relationships sentiment confidence summary)
  ∨ (∃ error, settle rt (Parsed data) = catch_handler error).
Proof.
  intros Hd He. unfold settle. rewrite (then_handler_sections rt data Hd He).
  destruct (interpolation rt data "entity_extraction" "entities"); [|by eauto].
  destruct (interpolation rt data "entity_extraction" "relationships"); [|by eauto].
  destruct (interpolation rt data "sentiment_analysis" "sentiment"); [|by eauto].
  destruct (interpolation rt data "sentiment_analysis" "confidence"); [|by eauto].
  destruct (interpolation rt data "summarization" "summary"); [|by eauto].
  left. by eexists _, _, _, _, _.
Qed.

(** With a falsy [error] and a section that is [undefined] or [null], one
    of the five interpolations throws and ends the continuation. *)
Lemma then_handler_throws (data : value) :
  nullish data = false →
  ToBoolean (property data "error") = false →
  nullish (property data "entity_extraction") = true
    ∨ nullish (property data "sentiment_analysis") = true
    ∨ nullish (property data "summarization") = true →
  ∃ section leaf error,
    (section, leaf) ∈ [("entity_extraction", "entities");
                       ("entity_extraction", "relationships");
                       ("sentiment_analysis", "sentiment");
                       ("sentiment_analysis", "confidence");
                       ("summarization", "summary")]
    ∧ interpolation rt data section leaf = Throw error
    ∧ result (then_handler rt data) = Throw error.
Proof.
  intros Hd He Hnull. rewrite (then_handler_sections rt data Hd He).
  destruct (interpolation rt data "entity_extraction" "entities") eqn:I1;
    [|eexists _, _, _; split_and!; [|done..]; apply list_elem_of_In; cbn; tauto].
  destruct (interpolation rt data "entity_extraction" "relationships") eqn:I2;
    [|eexists _, _, _; split_and!; [|done..]; apply list_elem_of_In; cbn; tauto].
  destruct (interpolation rt data "sentiment_analysis" "sentiment") eqn:I3;
    [|eexists _, _, _; split_and!; [|done..]; apply list_elem_of_In; cbn; tauto].
  destruct (interpolation rt data "sentiment_analysis" "confidence") eqn:I4;
    [|eexists _, _, _; split_and!; [|done..]; apply list_elem_of_In; cbn; tauto].
  destruct (interpolation rt data "summarization" "summary") eqn:I5;
    [|eexists _, _, _; split_and!; [|done..]; apply list_elem_of_In; cbn; tauto].
  unfold interpolation in I1, I3, I5.
  destruct Hnull as [H|[H|H]]; rewrite H in *; discriminate.
Qed.

(** The continuation looks at the response through five property names
    only. *)
Lemma then_handler_falsy_error (props : gmap string value) :
  ToBoolean (default VUndefined (props !! "error")) = false →
  then_handler rt (VObj props) = then_handler rt (VObj (delete "error" props)).
Proof.
  intros Hf.
  assert (∀ key, key ≠ "error" →
            Get rt (VObj (delete "error" props)) key = Get rt (VObj props) key) as Hkey.
  { intros key Hne. unfold Get. cbn. by rewrite lookup_delete_ne. }
  unfold then_handler.
  rewrite (bind_Get rt (VObj props) "error" _ eq_refl),
    (bind_Get rt (VObj (delete "error" props)) "error" _ eq_refl).
  cbn [property]. rewrite Hf, lookup_delete_eq. cbn [default ToBoolean].
  by rewrite !Hkey.
Qed.

End WithRuntime.

(** C1: for every success response (no [error] field, the three sections
    present with their five leaf fields), the HTML assigned to the results
    panel is the success fragment built from the five values; it contains,
    in this order, the entity-extraction header, the entities and the
    relationships, the sentiment-analysis header, the sentiment and the
    confidence, the summarization header and the summary, each value as the
    string a template literal gives it (a string value: itself). *)
Theorem success_response_rendered (rt : runtime)
    (props ee sa sm : gmap string value)
    (entities relationships sentiment confidence summary : value)
    (entities_text relationships_text sentiment_text confidence_text
       summary_text : string) :
  props !! "error" = None →
  props !! "entity_extraction" = Some (VObj ee) →
  props !! "sentiment_analysis" = Some (VObj sa) →
  props !! "summarization" = Some (VObj sm) →
  ee !! "entities" = Some entities →
  ee !! "relationships" = Some relationships →
  sa !! "sentiment" = Some sentiment →
  sa !! "confidence" = Some confidence →
  sm !! "summary" = Some summary →
  ToString rt entities = Normal entities_text →
  ToString rt relationships = Normal relationships_text →
  ToString rt sentiment = Normal sentiment_text →
  ToString rt confidence = Normal confidence_text →
  ToString rt summary = Normal summary_text →
  let html := settle rt (Parsed (VObj props)) in
  html = success_fragment entities_text relationships_text sentiment_text
           confidence_text summary_text
  ∧ in_order ["<h4>Entity Extraction:</h4>"; entities_text; relationships_text;
              "<h4>Sentiment Analysis:</h4>"; sentiment_text; confidence_text;
              "<h4>Summarization:</h4>"; summary_text] html.
Proof.
  intros He H1 H2 H3 L1 L2 L3 L4 L5 T1 T2 T3 T4 T5 html.
  assert (html = success_fragment entities_text relationships_text sentiment_text
                   confidence_text summary_text) as ->.
  { apply settle_normal, (then_handler_objects rt props ee sa sm);
      try done; [by rewrite He|unfold leaf_text..].
    - by rewrite L1.
    - by rewrite L2.
    - by rewrite L3.
    - by rewrite L4.
    - by rewrite L5. }
  split; [done|]. apply success_fragment_in_order.
Qed.

(** The example of the specification: the panel shows the three headers and
    the values verbatim. *)
Lemma success_response_rendered_apple :
  let html := settle Sample.V8 (Parsed Sample.apple) in
  html = success_fragment "Apple" "none" "positive" "0.92" "Apple profits rose."
  ∧ in_order ["<h4>Entity Extraction:</h4>"; "Apple"; "none";
              "<h4>Sentiment Analysis:</h4>"; "positive"; "0.92";
              "<h4>Summarization:</h4>"; "Apple profits rose."] html.
Proof.
  apply (success_response_rendered Sample.V8 Sample.apple_props
           Sample.apple_entity_extraction Sample.apple_sentiment_analysis
           Sample.apple_summarization
           (VStr "Apple") (VStr "none") (VStr "positive") (VStr "0.92")
           (VStr "Apple profits rose.")); reflexivity.
Defined.

(** A word without angle brackets that occurs in an error fragment, and
    neither in the heading nor in the closing tag, occurs in the text. *)
Lemma error_fragment_occurrence (w text : string) :
  has_char ">" w = false →
  has_char "<" w = false →
  contains w "<h3>Analysis Results:</h3><p" = false →
  contains w "/p>" = false →
  substring_of w (error_fragment text) →
  substring_of w text.
Proof.
  intros Hgt Hlt Hhead Htail H.
  change (error_fragment text)
    with ("<h3>Analysis Results:</h3><p" +:+ String ">" (text +:+ "</p>")) in H.
  apply (substring_of_split _ _ _ _ Hgt) in H as [H|H].
  { by apply not_contains in Hhead. }
  change (text +:+ "</p>") with (text +:+ String "<" "/p>") in H.
  apply (substring_of_split _ _ _ _ Hlt) in H as [H|H]; [done|].
  by apply not_contains in Htail.
Qed.

Lemma then_handler_truthy_error (rt : runtime) (props : gmap string value)
    (error : value) :
  props !! "error" = Some error →
  ToBoolean error = true →
  then_handler rt (VObj props) =
    (["error"; "error"], text ← ToString rt error; Normal (error_fragment text)).
Proof.
  intros He Ht.
  rewrite (then_handler_error rt (VObj props) eq_refl); cbn [property]; by rewrite He.
Qed.

(** C2, as the code has it: for every response object whose [error] field
    is truthy and has a string (a non-empty string is both), the HTML
    assigned to the results panel is the heading followed by one paragraph
    holding that string; it contains the string, it contains a field label
    only where the string itself does, and it is the same whatever else the
    object holds. *)
Theorem truthy_error_rendered (rt : runtime) (props : gmap string value)
    (error : value) (text : string) :
  props !! "error" = Some error →
  ToBoolean error = true →
  ToString rt error = Normal text →
  let html := settle rt (Parsed (VObj props)) in
  html = error_fragment text
  ∧ substring_of text html
  ∧ (∀ label, label ∈ labels → ¬ substring_of label text → ¬ substring_of label html)
  ∧ (∀ props' : gmap string value,
       props' !! "error" = Some error → settle rt (Parsed (VObj props')) = html).
Proof.
  intros He Ht Hs html.
  assert (∀ p : gmap string value, p !! "error" = Some error →
            settle rt (Parsed (VObj p)) = error_fragment text) as Hall.
  { intros p Hp. apply settle_normal.
    by rewrite (then_handler_truthy_error rt p error Hp Ht), Hs. }
  unfold html. rewrite (Hall props He). split_and!.
  - done.
  - apply substring_of_here.
  - intros label Hl Hno Hin. apply Hno.
    unfold labels in Hl. repeat (apply elem_of_cons in Hl as [->|Hl]);
      [by apply error_fragment_occurrence in Hin..|].
    by apply elem_of_nil in Hl.
  - intros p Hp. by apply Hall.
Qed.

Lemma truthy_error_rendered_boom :
  let html := settle Sample.V8 (Parsed (VObj {["error" := VStr "boom"]})) in
  html = "<h3>Analysis Results:</h3><p>boom</p>"
  ∧ substring_of "boom" html
  ∧ (∀ label, label ∈ labels → ¬ substring_of label "boom" → ¬ substring_of label html)
  ∧ (∀ props' : gmap string value,
       props' !! "error" = Some (VStr "boom") →
       settle Sample.V8 (Parsed (VObj props')) = html).
Proof.
  apply (truthy_error_rendered Sample.V8 {["error" := VStr "boom"]} (VStr "boom") "boom");
    reflexivity.
Defined.

(** A truthy [error] that has no string: the interpolation throws, and the
    panel gets the line of the [catch] continuation. *)
Lemma error_without_string_example :
  ToBoolean Sample.opaque_error = true
  ∧ ToString Sample.V8 Sample.opaque_error = Throw (ToPrimitive_error Sample.V8)
  ∧ settle Sample.V8 (Parsed (VObj Sample.opaque_error_props))
    = "<p>Error: TypeError: Cannot convert object to primitive value</p>".
Proof. repeat split. Qed.

(** C2 as stated fails twice: an error message may itself contain a label,
    and an [error] field that is present but empty does not select the
    error branch, so the labels and the values of the sections are
    rendered. *)
Lemma error_field_labels_counterexample :
  (Sample.summary_error_props !! "error" = Some (VStr "Summary unavailable")
   ∧ settle Sample.V8 (Parsed (VObj Sample.summary_error_props))
     = "<h3>Analysis Results:</h3><p>Summary unavailable</p>"
   ∧ substring_of "Summary"
       (settle Sample.V8 (Parsed (VObj Sample.summary_error_props))))
  ∧ (Sample.empty_error_apple_props !! "error" = Some (VStr "")
     ∧ settle Sample.V8 (Parsed (VObj Sample.empty_error_apple_props))
       = success_fragment "Apple" "none" "positive" "0.92" "Apple profits rose."
     ∧ substring_of "Entities"
         (settle Sample.V8 (Parsed (VObj Sample.empty_error_apple_props)))
     ∧ substring_of "Apple"
         (settle Sample.V8 (Parsed (VObj Sample.empty_error_apple_props)))).
Proof.
  repeat split; try reflexivity; by apply contains_spec.
Qed.

(** C3, as the code has it: for every response object whose [error] field
    is truthy, the member expressions the continuation evaluates are two
    reads of [data.error] (the test and the interpolation) and nothing
    else, so none of the three sections, and no section is rendered: the
    panel gets the heading and the string of the error when the error has
    one, and the line of the [catch] continuation for the TypeError of the
    conversion when it has none; never a success fragment. *)
Theorem truthy_error_reads_no_section (rt : runtime)
    (props : gmap string value) (error : value) :
  props !! "error" = Some error →
  ToBoolean error = true →
  reads (then_handler rt (VObj props)) = ["error"; "error"]
  ∧ (∀ name, name ∈ section_names → name ∉ reads (then_handler rt (VObj props)))
  ∧ (∀ text, ToString rt error = Normal text →
       settle rt (Parsed (VObj props)) = error_fragment text)
  ∧ (∀ thrown, ToString rt error = Throw thrown →
       thrown = ToPrimitive_error rt
       ∧ settle rt (Parsed (VObj props)) = catch_handler thrown)
  ∧ (∀ entities relationships sentiment confidence summary : string,
       settle rt (Parsed (VObj props))
       ≠ success_fragment entities relationships sentiment confidence summary).
Proof.
  intros He Ht.
  pose proof (then_handler_truthy_error rt props error He Ht) as Hthen.
  assert (∀ text, ToString rt error = Normal text →
            settle rt (Parsed (VObj props)) = error_fragment text) as Hnormal.
  { intros text Hs. apply settle_normal. by rewrite Hthen, Hs. }
  assert (∀ thrown, ToString rt error = Throw thrown →
            settle rt (Parsed (VObj props)) = catch_handler thrown) as Hthrow.
  { intros thrown Hs. apply settle_throw. by rewrite Hthen, Hs. }
  rewrite Hthen. split_and!.
  - done.
  - intros name Hn Hr. cbn in Hr. unfold section_names in Hn.
    repeat (apply elem_of_cons in Hn as [->|Hn]);
      [by repeat (apply elem_of_cons in Hr as [?|Hr]);
         [..|by apply elem_of_nil in Hr]..|].
    by apply elem_of_nil in Hn.
  - done.
  - intros thrown Hs. split; [by eapply ToString_throws|by apply Hthrow].
  - intros e r s c m. destruct (ToString rt error) as [text|thrown] eqn:Hs.
    + rewrite (Hnormal text eq_refl). intros H. symmetry in H.
      by apply success_fragment_not_error_fragment in H.
    + rewrite (Hthrow thrown eq_refl). apply catch_handler_not_success_fragment.
Qed.

Lemma truthy_error_reads_no_section_boom :
  reads (then_handler Sample.V8 (VObj {["error" := VStr "boom"]})) = ["error"; "error"]
  ∧ (∀ name, name ∈ section_names →
       name ∉ reads (then_handler Sample.V8 (VObj {["error" := VStr "boom"]})))
  ∧ (∀ text, ToString Sample.V8 (VStr "boom") = Normal text →
       settle Sample.V8 (Parsed (VObj {["error" := VStr "boom"]})) = error_fragment text)
  ∧ (∀ thrown, ToString Sample.V8 (VStr "boom") = Throw thrown →
       thrown = ToPrimitive_error Sample.V8
       ∧ settle Sample.V8 (Parsed (VObj {["error" := VStr "boom"]}))
         = catch_handler thrown)
  ∧ (∀ entities relationships sentiment confidence summary : string,
       settle Sample.V8 (Parsed (VObj {["error" := VStr "boom"]}))
       ≠ success_fragment entities relationships sentiment confidence summary).
Proof.
  apply (truthy_error_reads_no_section Sample.V8 {["error" := VStr "boom"]} (VStr "boom"));
    reflexivity.
Defined.

(** C3 as stated fails on an [error] field that is present and empty: the
    test is falsy, the first section is read, and since it is missing the
    read of its [entities] throws. *)
Lemma error_field_present_counterexample :
  Sample.empty_error_props !! "error" = Some (VStr "")
  ∧ reads (then_handler Sample.V8 (VObj Sample.empty_error_props))
    = ["error"; "entity_extraction"; "entities"]
  ∧ "entity_extraction" ∈ reads (then_handler Sample.V8 (VObj Sample.empty_error_props))
  ∧ settle Sample.V8 (Parsed (VObj Sample.empty_error_props))
    = "<p>Error: TypeError: Cannot read properties of undefined (reading 'entities')</p>".
Proof.
  repeat split; try reflexivity. apply list_elem_of_In. vm_compute. tauto.
Qed.

(** C4: for every response object without an [error] field whose three
    sections are objects, the continuation rejects nothing: a leaf field
    that is missing is interpolated as the literal text [undefined], and
    the HTML assigned to the panel is the success fragment with that text
    in the place of each missing leaf value. *)
Theorem missing_leaves_render_undefined (rt : runtime)
    (props ee sa sm : gmap string value)
    (entities relationships sentiment confidence summary : string) :
  props !! "error" = None →
  props !! "entity_extraction" = Some (VObj ee) →
  props !! "sentiment_analysis" = Some (VObj sa) →
  props !! "summarization" = Some (VObj sm) →
  leaf_text rt ee "entities" = Normal entities →
  leaf_text rt ee "relationships" = Normal relationships →
  leaf_text rt sa "sentiment" = Normal sentiment →
  leaf_text rt sa "confidence" = Normal confidence →
  leaf_text rt sm "summary" = Normal summary →
  let html := settle rt (Parsed (VObj props)) in
  result (then_handler rt (VObj props)) = Normal html
  ∧ html = success_fragment entities relationships sentiment confidence summary
  ∧ (ee !! "entities" = None → entities = "undefined")
  ∧ (ee !! "relationships" = None → relationships = "undefined")
  ∧ (sa !! "sentiment" = None → sentiment = "undefined")
  ∧ (sa !! "confidence" = None → confidence = "undefined")
  ∧ (sm !! "summary" = None → summary = "undefined").
Proof.
  intros He H1 H2 H3 L1 L2 L3 L4 L5 html.
  assert (result (then_handler rt (VObj props)) =
            Normal (success_fragment entities relationships sentiment confidence
                      summary)) as Hr.
  { apply (then_handler_objects rt props ee sa sm); try done. by rewrite He. }
  unfold html. rewrite (settle_normal _ _ _ Hr).
  unfold leaf_text in L1, L2, L3, L4, L5.
  split_and!; [done..| | | | |]; intros Hnone; rewrite Hnone in *; congruence.
Qed.

Lemma missing_leaves_render_undefined_sparse :
  let html := settle Sample.V8 (Parsed (VObj Sample.sparse_props)) in
  result (then_handler Sample.V8 (VObj Sample.sparse_props)) = Normal html
  ∧ html = success_fragment "Apple" "undefined" "positive" "undefined" "undefined"
  ∧ (Sample.sparse_entity_extraction !! "entities" = None → "Apple" = "undefined")
  ∧ (Sample.sparse_entity_extraction !! "relationships" = None →
     "undefined" = "undefined")
  ∧ (Sample.sparse_sentiment_analysis !! "sentiment" = None → "positive" = "undefined")
  ∧ (Sample.sparse_sentiment_analysis !! "confidence" = None →
     "undefined" = "undefined")
  ∧ ((∅ : gmap string value) !! "summary" = None → "undefined" = "undefined").
Proof.
  exact (missing_leaves_render_undefined Sample.V8 Sample.sparse_props
           Sample.sparse_entity_extraction Sample.sparse_sentiment_analysis ∅
           "Apple" "undefined" "positive" "undefined" "undefined"
           eq_refl eq_refl eq_refl eq_refl eq_refl eq_refl eq_refl eq_refl eq_refl).
Defined.

(** The empty string, zero and [null] are falsy. *)
Lemma falsy_examples :
  ToBoolean (VStr "") = false ∧ ToBoolean (VNum 0) = false ∧ ToBoolean VNull = false.
Proof. by vm_compute. Qed.

(** C8, as the code has it: for every response object whose [error] field
    is present but falsy, the continuation takes the branch of the
    sections: it runs exactly as on the same object without the field and
    the panel never gets an error fragment; when the three sections are
    objects the panel gets the success fragment, [undefined] standing for
    each missing leaf. *)
Theorem falsy_error_takes_success_branch (rt : runtime)
    (props : gmap string value) (error : value) :
  props !! "error" = Some error →
  ToBoolean error = false →
  then_handler rt (VObj props) = then_handler rt (VObj (delete "error" props))
  ∧ (∀ text, settle rt (Parsed (VObj props)) ≠ error_fragment text)
  ∧ (∀ (ee sa sm : gmap string value)
       (entities relationships sentiment confidence summary : string),
       props !! "entity_extraction" = Some (VObj ee) →
       props !! "sentiment_analysis" = Some (VObj sa) →
       props !! "summarization" = Some (VObj sm) →
       leaf_text rt ee "entities" = Normal entities →
       leaf_text rt ee "relationships" = Normal relationships →
       leaf_text rt sa "sentiment" = Normal sentiment →
       leaf_text rt sa "confidence" = Normal confidence →
       leaf_text rt sm "summary" = Normal summary →
       settle rt (Parsed (VObj props)) =
         success_fragment entities relationships sentiment confidence summary).
Proof.
  intros He Hf.
  assert (ToBoolean (default VUndefined (props !! "error")) = false) as Hf'
    by by rewrite He.
  split_and!.
  - by apply then_handler_falsy_error.
  - intros text.
    destruct (settle_sections rt (VObj props) eq_refl Hf')
      as [(e & r & s & c & m & ->)|[err ->]].
    + apply success_fragment_not_error_fragment.
    + apply catch_handler_not_error_fragment.
  - intros ee sa sm e r s c m H1 H2 H3 L1 L2 L3 L4 L5.
    by apply settle_normal, (then_handler_objects rt props ee sa sm).
Qed.

Lemma falsy_error_takes_success_branch_apple :
  then_handler Sample.V8 (VObj Sample.empty_error_apple_props)
    = then_handler Sample.V8 (VObj (delete "error" Sample.empty_error_apple_props))
  ∧ (∀ text,
       settle Sample.V8 (Parsed (VObj Sample.empty_error_apple_props))
       ≠ error_fragment text)
  ∧ (∀ (ee sa sm : gmap string value)
       (entities relationships sentiment confidence summary : string),
       Sample.empty_error_apple_props !! "entity_extraction" = Some (VObj ee) →
       Sample.empty_error_apple_props !! "sentiment_analysis" = Some (VObj sa) →
       Sample.empty_error_apple_props !! "summarization" = Some (VObj sm) →
       leaf_text Sample.V8 ee "entities" = Normal entities →
       leaf_text Sample.V8 ee "relationships" = Normal relationships →
       leaf_text Sample.V8 sa "sentiment" = Normal sentiment →
       leaf_text Sample.V8 sa "confidence" = Normal confidence →
       leaf_text Sample.V8 sm "summary" = Normal summary →
       settle Sample.V8 (Parsed (VObj Sample.empty_error_apple_props)) =
         success_fragment entities relationships sentiment confidence summary).
Proof.
  exact (falsy_error_takes_success_branch Sample.V8 Sample.empty_error_apple_props
           (VStr "") eq_refl eq_refl).
Defined.

(** C8 as stated fails on a response that holds a falsy [error] and no
    sections: the branch of the sections is taken, but nothing of them is
    rendered, not even as [undefined]; the read of [entities] throws and
    the panel gets the line of the [catch] continuation. *)
Lemma falsy_error_without_sections_counterexample :
  Sample.null_error_props !! "error" = Some VNull
  ∧ ToBoolean VNull = false
  ∧ result (then_handler Sample.V8 (VObj Sample.null_error_props))
    = Throw (ErrorObject "TypeError"
               "Cannot read properties of undefined (reading 'entities')")
  ∧ settle Sample.V8 (Parsed (VObj Sample.null_error_props))
    = "<p>Error: TypeError: Cannot read properties of undefined (reading 'entities')</p>"
  ∧ ¬ substring_of "Entity Extraction"
        (settle Sample.V8 (Parsed (VObj Sample.null_error_props)))
  ∧ ¬ substring_of "<p>Entities: undefined</p>"
        (settle Sample.V8 (Parsed (VObj Sample.null_error_props))).
Proof.
  repeat split; try reflexivity; by apply not_contains.
Qed.

(** C9: for every response object without an [error] field that lacks one
    of the three sections, one of the five interpolations throws a
    TypeError inside the rendering continuation, that of the property read
    on [undefined] when it is an interpolation of a missing section, and
    the panel gets the line of the [catch] continuation, [Error: ] followed
    by the string of that exception, which is not a success fragment,
    whatever its five texts. *)
Theorem missing_section_reaches_catch (rt : runtime) (props : gmap string value) :
  props !! "error" = None →
  props !! "entity_extraction" = None
    ∨ props !! "sentiment_analysis" = None
    ∨ props !! "summarization" = None →
  ∃ section leaf error,
    (section, leaf) ∈ [("entity_extraction", "entities");
                       ("entity_extraction", "relationships");
                       ("sentiment_analysis", "sentiment");
                       ("sentiment_analysis", "confidence");
                       ("summarization", "summary")]
    ∧ interpolation rt (VObj props) section leaf = Throw error
    ∧ (props !! section = None → error = TypeError rt VUndefined leaf)
    ∧ (∃ message, error = ErrorObject "TypeError" message)
    ∧ result (then_handler rt (VObj props)) = Throw error
    ∧ settle rt (Parsed (VObj props)) = "<p>Error: " +:+ Error_toString error +:+ "</p>"
    ∧ ∀ entities relationships sentiment confidence summary : string,
        settle rt (Parsed (VObj props))
        ≠ success_fragment entities relationships sentiment confidence summary.
Proof.
  intros He Hmiss.
  destruct (then_handler_throws rt (VObj props) eq_refl)
    as (section & leaf & error & Hin & Hleaf & Hthrow).
  { cbn [property]. by rewrite He. }
  { cbn [property]. destruct Hmiss as [-> | [-> | ->]]; auto. }
  exists section, leaf, error. rewrite (settle_throw _ _ _ Hthrow).
  split_and!; [done..| | |done|done|].
  - intros Hnone. rewrite (interpolation_missing _ _ _ _ Hnone) in Hleaf.
    by injection Hleaf as <-.
  - by eapply interpolation_throws.
  - intros. apply catch_handler_not_success_fragment.
Qed.

Lemma missing_section_reaches_catch_no_summarization :
  ∃ section leaf error,
    (section, leaf) ∈ [("entity_extraction", "entities");
                       ("entity_extraction", "relationships");
                       ("sentiment_analysis", "sentiment");
                       ("sentiment_analysis", "confidence");
                       ("summarization", "summary")]
    ∧ interpolation Sample.V8 (VObj Sample.no_summarization_props) section leaf
      = Throw error
    ∧ (Sample.no_summarization_props !! section = None →
       error = TypeError Sample.V8 VUndefined leaf)
    ∧ (∃ message, error = ErrorObject "TypeError" message)
    ∧ result (then_handler Sample.V8 (VObj Sample.no_summarization_props)) = Throw error
    ∧ settle Sample.V8 (Parsed (VObj Sample.no_summarization_props))
      = "<p>Error: " +:+ Error_toString error +:+ "</p>"
    ∧ ∀ entities relationships sentiment confidence summary : string,
        settle Sample.V8 (Parsed (VObj Sample.no_summarization_props))
        ≠ success_fragment entities relationships sentiment confidence summary.
Proof.
  apply (missing_section_reaches_catch Sample.V8 Sample.no_summarization_props).
  - reflexivity.
  - right. right. reflexivity.
Defined.

End Rendering.

(** ** The page: requests and settlements

    The click listener is attached once, when the document has loaded; the
    events of the model are those that follow.  Handlers run one at a time,
    so a trace of events is a sequence of whole handler runs. *)

Module Page.
Import Str StrFacts HandlerFacts.

#[local] Arguments String.append !_ _ / : simpl nomatch.

Lemma unquote_quote_char (c : ascii) (rest : string) :
  unquote_chars (quote_char c +:+ rest) = String c (unquote_chars rest).
Proof.
  destruct c as [[] [] [] [] [] [] [] []];
    cbv -[unquote_chars]; cbn [unquote_chars]; cbv -[unquote_chars]; reflexivity.
Qed.

Lemma unquote_quote_chars (t rest : string) :
  unquote_chars (quote_chars t +:+ String dquote rest) = t.
Proof.
  induction t as [|c t IH]; [done|].
  cbn [quote_chars]. by rewrite app_assoc, unquote_quote_char, IH.
Qed.

(** The body determines the text it was made from. *)
Lemma JSON_stringify_document_inj (t1 t2 : string) :
  JSON_stringify_document t1 = JSON_stringify_document t2 → t1 = t2.
Proof.
  unfold JSON_stringify_document, QuoteJSONString. cbn. intros H.
  simplify_eq. rewrite !app_assoc in H.
  change (String dquote "" +:+ "}") with (String dquote "}") in H.
  apply (f_equal unquote_chars) in H.
  by rewrite !unquote_quote_chars in H.
Qed.

(** C5: for every click, whatever the text [t] of the field, the empty
    string included, the click handler issues one request and nothing else:
    the list of requests grows by exactly the POST to [/analyze] whose body
    is the JSON text of [{ document: t }] and whose one header is
    [Content-Type: application/json]; that request is in flight and the
    page is unchanged.  The body determines [t], and for the empty text it
    is the object with the empty string. *)
Theorem click_issues_one_post (rt : runtime) (w : world) :
  ∃ w',
    step rt w Click = Some w'
    ∧ sent w' =
        sent w ++ [ {| url := "/analyze";
                       method := "POST";
                       headers := [("Content-Type", "application/json")];
                       body := JSON_stringify_document (document_value (dom w)) |} ]
    ∧ length (sent w') = S (length (sent w))
    ∧ in_flight w' = {[length (sent w)]} ∪ in_flight w
    ∧ dom w' = dom w
    ∧ (∀ t, JSON_stringify_document t
              = JSON_stringify_document (document_value (dom w)) →
            t = document_value (dom w))
    ∧ JSON_stringify_document "" =
        "{" +:+ String dquote "document" +:+ String dquote ":"
            +:+ String dquote (String dquote "}").
Proof.
  exists (click_handler w). split_and!; try done.
  - cbn. rewrite length_app. cbn. lia.
  - intros t. apply JSON_stringify_document_inj.
Qed.

Lemma step_results (rt : runtime) (w w' : world) (ev : event) :
  step rt w ev = Some w' →
  results_innerHTML (dom w') =
    match ev with
    | Settle _ o => settle rt o
    | _ => results_innerHTML (dom w)
    end.
Proof.
  destruct ev as [text| |id o]; cbn; [by intros [= <-]..|].
  case_bool_decide; [by intros [= <-]|done].
Qed.

Lemma step_Settle (rt : runtime) (w : world) (id : nat) (o : outcome) :
  id ∈ in_flight w →
  step rt w (Settle id o) =
    Some {| dom := set_results (settle rt o) (dom w);
            sent := sent w;
            in_flight := in_flight w ∖ {[id]} |}.
Proof. intros H. cbn. by rewrite bool_decide_eq_true_2. Qed.

(** C6: for every transport failure of a request in flight, the promise of
    [fetch] rejecting or the body not decoding as JSON, the panel is
    assigned the line [Error: ] followed by the string of the rejection
    reason, in a paragraph; the assignment is unconditional, so the panel
    differs from what it showed before unless that was this very line. *)
Theorem transport_failure_rendered (rt : runtime) (w : world) (id : nat)
    (reason : error_object) (o : outcome) :
  id ∈ in_flight w →
  o = FetchRejected reason ∨ o = BodyRejected reason →
  ∃ w',
    step rt w (Settle id o) = Some w'
    ∧ results_innerHTML (dom w') = "<p>Error: " +:+ Error_toString reason +:+ "</p>"
    ∧ substring_of ("Error: " +:+ Error_toString reason) (results_innerHTML (dom w'))
    ∧ (results_innerHTML (dom w) ≠ "<p>Error: " +:+ Error_toString reason +:+ "</p>" →
       results_innerHTML (dom w') ≠ results_innerHTML (dom w)).
Proof.
  intros Hin Ho. eexists. split; [by apply step_Settle|]. cbn.
  assert (settle rt o = "<p>Error: " +:+ Error_toString reason +:+ "</p>") as ->
    by by destruct Ho as [-> | ->].
  repeat split.
  - exists "<p>", "</p>". reflexivity.
  - intros Hne Heq. by apply Hne.
Qed.

Lemma transport_failure_rendered_failed_to_fetch :
  ∃ w',
    step Sample.V8 Sample.one_in_flight
      (Settle 0 (FetchRejected Sample.failed_to_fetch)) = Some w'
    ∧ results_innerHTML (dom w')
      = "<p>Error: " +:+ Error_toString Sample.failed_to_fetch +:+ "</p>"
    ∧ substring_of ("Error: " +:+ Error_toString Sample.failed_to_fetch)
        (results_innerHTML (dom w'))
    ∧ (results_innerHTML (dom Sample.one_in_flight)
         ≠ "<p>Error: " +:+ Error_toString Sample.failed_to_fetch +:+ "</p>" →
       results_innerHTML (dom w') ≠ results_innerHTML (dom Sample.one_in_flight)).
Proof.
  apply (transport_failure_rendered Sample.V8 Sample.one_in_flight 0
           Sample.failed_to_fetch (FetchRejected Sample.failed_to_fetch)).
  - vm_compute. reflexivity.
  - left. reflexivity.
Defined.

(** C7: after any sequence of clicks, edits and settlements the panel holds
    the string rendered from the outcome that settled last, whichever
    request it belongs to and whenever that request was sent; before any
    settlement it holds what it held at the start.  No settlement looks at
    which request it completes. *)
Theorem last_settlement_wins (rt : runtime) (evs : list event) (w w' : world) :
  run rt w evs = Some w' →
  results_innerHTML (dom w') =
    match last_settled evs with
    | Some o => settle rt o
    | None => results_innerHTML (dom w)
    end.
Proof.
  revert w. induction evs as [|ev evs IH]; intros w; cbn.
  - by intros [= <-].
  - destruct (step rt w ev) as [w1|] eqn:Hstep; cbn; [|done].
    intros Hrun. pose proof (IH _ Hrun) as Hfinal.
    destruct (last_settled evs); [done|].
    rewrite Hfinal, (step_results _ _ _ _ Hstep). by destruct ev.
Qed.

Lemma last_settlement_wins_reversed :
  ∃ w',
    run Sample.V8 Sample.initial Sample.reversed = Some w'
    ∧ results_innerHTML (dom w') = "<p>Error: TypeError: Failed to fetch</p>".
Proof.
  eexists. split; [reflexivity|].
  exact (last_settlement_wins Sample.V8 Sample.reversed Sample.initial _ eq_refl).
Defined.

End Page.

(** ** The page over a whole trace: requests, field, requests in flight *)

Module TraceFacts.
Import Trace.

(** The requests issued over any trace are the requests for the text the
    field held at each click, in the order of the clicks, appended to those
    issued before: one per click, none from a settlement, whatever its
    outcome, and none changed by a later edit. *)
Theorem requests_follow_clicks (rt : runtime) (evs : list event) (w w' : world) :
  run rt w evs = Some w' →
  sent w' = sent w ++ (analyze_request <$> clicked_texts (document_value (dom w)) evs)
  ∧ length (sent w') = length (sent w) + clicks evs.
Proof.
  revert w. induction evs as [|ev evs IH]; intros w; cbn.
  - intros [= <-]. by rewrite app_nil_r, Nat.add_0_r.
  - destruct (step rt w ev) as [w1|] eqn:Hstep; cbn; [|done].
    intros [Hsent Hlen]%IH. rewrite Hlen, Hsent. clear Hlen Hsent.
    destruct ev as [text| |id o]; cbn in Hstep.
    + by injection Hstep as <-.
    + injection Hstep as <-. cbn.
      rewrite <-app_assoc, length_app. cbn. split; [done|lia].
    + case_bool_decide; [|done]. by injection Hstep as <-.
Qed.

Lemma requests_follow_clicks_session :
  ∃ w',
    run Sample.V8 Sample.initial Cases.session = Some w'
    ∧ sent w' = [] ++ (analyze_request <$> ["first"; "second"])
    ∧ length (sent w') = 0 + 2.
Proof.
  eexists. split; [reflexivity|].
  exact (requests_follow_clicks Sample.V8 Cases.session Sample.initial _ eq_refl).
Defined.

(** The script never writes the text field: after any trace it holds what
    the user typed last, or what it held at the start. *)
Theorem field_follows_edits (rt : runtime) (evs : list event) (w w' : world) :
  run rt w evs = Some w' →
  document_value (dom w') = last_input (document_value (dom w)) evs.
Proof.
  revert w. induction evs as [|ev evs IH]; intros w; cbn.
  - by intros [= <-].
  - destruct (step rt w ev) as [w1|] eqn:Hstep; cbn; [|done].
    intros ->%IH.
    destruct ev as [text| |id o]; cbn in Hstep.
    + by injection Hstep as <-.
    + by injection Hstep as <-.
    + case_bool_decide; [|done]. by injection Hstep as <-.
Qed.

Lemma field_follows_edits_session :
  ∃ w',
    run Sample.V8 Sample.initial Cases.session = Some w'
    ∧ document_value (dom w') = "second".
Proof.
  eexists. split; [reflexivity|].
  exact (field_follows_edits Sample.V8 Cases.session Sample.initial _ eq_refl).
Defined.

Lemma well_formed_initial : well_formed Sample.initial.
Proof. intros id Hid. cbn in Hid. set_solver. Qed.

Lemma step_in_flight (rt : runtime) (w w' : world) (ev : event) :
  well_formed w →
  step rt w ev = Some w' →
  well_formed w'
  ∧ size (in_flight w') + settlements [ev] = size (in_flight w) + clicks [ev].
Proof.
  intros Hwf. destruct ev as [text| |id o]; cbn.
  - intros [= <-]. split; [done|]. cbn. lia.
  - intros [= <-]. cbn. split.
    + intros id [->%elem_of_singleton|Hid%Hwf]%elem_of_union;
        cbn; rewrite length_app; cbn; lia.
    + rewrite size_union, size_singleton; [lia|].
      apply disjoint_singleton_l. intros Hin%Hwf. lia.
  - case_bool_decide as Hin; [|done]. intros [= <-]. cbn. split.
    + intros id' [Hid' _]%elem_of_difference. by apply Hwf.
    + assert ({[id]} ⊆ in_flight w) as Hsub
        by by apply singleton_subseteq_l.
      pose proof (subseteq_size _ _ Hsub) as Hpos.
      rewrite size_singleton in Hpos.
      rewrite (size_difference _ _ Hsub), size_singleton. lia.
Qed.

(** No request is dropped, cancelled or settled twice: along any trace the
    requests in flight stay requests that were sent, and their number is
    the number of clicks less the number of settlements. *)
Theorem in_flight_accounting (rt : runtime) (evs : list event) (w w' : world) :
  well_formed w →
  run rt w evs = Some w' →
  well_formed w'
  ∧ size (in_flight w') + settlements evs = size (in_flight w) + clicks evs.
Proof.
  revert w. induction evs as [|ev evs IH]; intros w Hwf; cbn.
  - intros [= <-]. split; [done|lia].
  - destruct (step rt w ev) as [w1|] eqn:Hstep; cbn; [|done].
    destruct (step_in_flight rt w w1 ev Hwf Hstep) as [Hwf1 Hsize].
    intros [Hwf' Hsize']%IH; [|done]. split; [done|].
    destruct ev; cbn in *; lia.
Qed.

Lemma in_flight_accounting_session :
  ∃ w',
    run Sample.V8 Sample.initial Cases.session = Some w'
    ∧ well_formed w'
    ∧ size (in_flight w') + 2 = size (in_flight Sample.initial) + 2.
Proof.
  eexists. split; [reflexivity|].
  exact (in_flight_accounting Sample.V8 Cases.session Sample.initial _
           well_formed_initial eq_refl).
Defined.

End TraceFacts.

(** ** The document: before and after the listener is attached *)

Module DocumentFacts.
Import Document.

(** Until the document has loaded no click listener is attached: clicks on
    the button send nothing, whatever the user types in between. *)
Theorem clicks_before_load_send_nothing (rt : runtime)
    (evs : list document_event) (d d' : document) :
  click_listeners d = 0 →
  loads evs = 0 →
  run_document rt d evs = Some d' →
  sent (page_world d') = sent (page_world d) ∧ click_listeners d' = 0.
Proof.
  revert d. induction evs as [|ev evs IH]; intros d Hzero Hloads; cbn.
  - by intros [= <-].
  - destruct ev as [| |text|id o]; cbn in Hloads; [done|..]; cbn.
    + rewrite Hzero. cbn. intros Hrun.
      apply IH in Hrun as [-> ->]; done.
    + intros Hrun. apply IH in Hrun as [-> ->]; done.
    + case_bool_decide; [|done]. cbn. intros Hrun.
      apply IH in Hrun as [-> ->]; done.
Qed.

Lemma clicks_before_load_send_nothing_early :
  ∃ d',
    run_document Sample.V8 (fresh Sample.initial) Cases.early_clicks = Some d'
    ∧ sent (page_world d') = [] ∧ click_listeners d' = 0.
Proof.
  eexists. split; [reflexivity|].
  exact (clicks_before_load_send_nothing Sample.V8 Cases.early_clicks
           (fresh Sample.initial) _ eq_refl eq_refl eq_refl).
Defined.

Lemma run_document_app (rt : runtime) (evs1 evs2 : list document_event) (d : document) :
  run_document rt d (evs1 ++ evs2) = run_document rt d evs1 ≫= λ d1, run_document rt d1 evs2.
Proof.
  revert d. induction evs1 as [|ev evs1 IH]; intros d; [done|]. cbn.
  destruct (dispatch rt d ev) as [d1|]; cbn; [apply IH|done].
Qed.

(** Without a click listener: nothing is sent and the field follows the
    edits. *)
Lemma run_unloaded (rt : runtime) (evs : list document_event) (d d' : document) :
  click_listeners d = 0 →
  loads evs = 0 →
  run_document rt d evs = Some d' →
  click_listeners d' = 0
  ∧ sent (page_world d') = sent (page_world d)
  ∧ document_value (dom (page_world d'))
    = Trace.last_input (document_value (dom (page_world d))) (page_events evs).
Proof.
  revert d. induction evs as [|ev evs IH]; intros d Hzero Hloads; cbn.
  - by intros [= <-].
  - destruct ev as [| |text|id o]; cbn in Hloads; [done|..]; cbn.
    + rewrite Hzero. cbn. intros Hrun.
      apply IH in Hrun as (-> & -> & ->); done.
    + intros Hrun. apply IH in Hrun as (-> & -> & ->); done.
    + case_bool_decide; [|done]. cbn. intros Hrun.
      apply IH in Hrun as (-> & -> & ->); done.
Qed.

(** With one click listener: one request per click, for the text of the
    field at the click. *)
Lemma run_loaded (rt : runtime) (evs : list document_event) (d d' : document) :
  click_listeners d = 1 →
  loads evs = 0 →
  run_document rt d evs = Some d' →
  click_listeners d' = 1
  ∧ sent (page_world d')
    = sent (page_world d)
      ++ (analyze_request
            <$> Trace.clicked_texts (document_value (dom (page_world d))) (page_events evs)).
Proof.
  revert d. induction evs as [|ev evs IH]; intros d Hone Hloads; cbn.
  - intros [= <-]. by rewrite app_nil_r.
  - destruct ev as [| |text|id o]; cbn in Hloads; [done|..]; cbn.
    + rewrite Hone. cbn. intros Hrun.
      apply IH in Hrun as (-> & ->); [|done..]. cbn. by rewrite <-app_assoc.
    + intros Hrun. apply IH in Hrun as (-> & ->); done.
    + case_bool_decide; [|done]. cbn. intros Hrun.
      apply IH in Hrun as (-> & ->); done.
Qed.

(** From a fresh document, one [DOMContentLoaded] attaches one click
    listener: the clicks before it send nothing, and from then on each
    click on the button sends one request, for the text the field holds at
    that click. *)
Theorem requests_after_load (rt : runtime)
    (before after : list document_event) (w : world) (d' : document) :
  loads before = 0 →
  loads after = 0 →
  run_document rt (fresh w) (before ++ DOMContentLoaded :: after) = Some d' →
  click_listeners d' = 1
  ∧ sent (page_world d')
    = sent w
      ++ (analyze_request
            <$> Trace.clicked_texts
                  (Trace.last_input (document_value (dom w)) (page_events before))
                  (page_events after)).
Proof.
  intros Hbefore Hafter. rewrite run_document_app.
  destruct (run_document rt (fresh w) before) as [d1|] eqn:Hrun1; cbn; [|done].
  destruct (run_unloaded rt before (fresh w) d1 eq_refl Hbefore Hrun1)
    as (Hzero & Hsent & Hfield).
  cbn in Hsent, Hfield. intros Hrun2.
  apply run_loaded in Hrun2 as [-> ->]; [|by cbn; rewrite Hzero|done].
  cbn. by rewrite Hsent, Hfield.
Qed.

Lemma requests_after_load_session :
  ∃ d',
    run_document Sample.V8 (fresh Sample.initial)
      (Cases.early_clicks ++ DOMContentLoaded :: Cases.loaded_session) = Some d'
    ∧ click_listeners d' = 1
    ∧ sent (page_world d') = [] ++ (analyze_request <$> ["hasty"; "first"; "second"]).
Proof.
  eexists. split; [reflexivity|].
  exact (requests_after_load Sample.V8 Cases.early_clicks Cases.loaded_session
           Sample.initial _ eq_refl eq_refl eq_refl).
Defined.

End DocumentFacts.

(** ** Every response: shapes of the panel, conversions *)

Module ShapeFacts.
Import Str StrFacts HandlerFacts Rendering Shape.

(** Whatever the outcome of a request, the string assigned to the panel is
    an error fragment, a success fragment or the line of [catch], and only
    one of the three; it is an error fragment only for a decoded response
    whose [error] is truthy, and a success fragment only for one whose
    [error] is falsy or absent. *)
Theorem panel_shapes (rt : runtime) (o : outcome) :
  let html := settle rt o in
  (is_error_fragment html ∨ is_success_fragment html ∨ is_catch_line html)
  ∧ ¬ (is_error_fragment html ∧ is_success_fragment html)
  ∧ ¬ (is_error_fragment html ∧ is_catch_line html)
  ∧ ¬ (is_success_fragment html ∧ is_catch_line html)
  ∧ (is_error_fragment html →
     ∃ data, o = Parsed data ∧ ToBoolean (property data "error") = true)
  ∧ (is_success_fragment html →
     ∃ data, o = Parsed data ∧ ToBoolean (property data "error") = false).
Proof.
  intros html.
  assert (¬ (is_error_fragment html ∧ is_success_fragment html)) as Hes.
  { intros [[text ->] (e & r & s & c & m & H)].
    symmetry in H. by apply success_fragment_not_error_fragment in H. }
  assert (¬ (is_error_fragment html ∧ is_catch_line html)) as Hec.
  { intros [[text ->] [error H]].
    symmetry in H. by apply catch_handler_not_error_fragment in H. }
  assert (¬ (is_success_fragment html ∧ is_catch_line html)) as Hsc.
  { intros [(e & r & s & c & m & ->) [error H]].
    symmetry in H. by apply catch_handler_not_success_fragment in H. }
  assert (is_catch_line html
          ∨ (∃ data, o = Parsed data ∧ ToBoolean (property data "error") = true
                     ∧ is_error_fragment html)
          ∨ (∃ data, o = Parsed data ∧ ToBoolean (property data "error") = false
                     ∧ is_success_fragment html)) as Hcases.
  { unfold html. destruct o as [reason|reason|data]; [left; by eexists..|].
    destruct (nullish data) eqn:Hd.
    { left. exists (TypeError rt data "error"). apply settle_throw.
      by rewrite (then_handler_nullish rt data Hd). }
    destruct (ToBoolean (property data "error")) eqn:He.
    - destruct (ToString rt (property data "error")) as [text|error] eqn:Hs.
      + right. left. exists data. split_and!; [done..|]. exists text.
        apply settle_normal. by rewrite (then_handler_error rt data Hd He), Hs.
      + left. exists error.
        apply settle_throw. by rewrite (then_handler_error rt data Hd He), Hs.
    - destruct (settle_sections rt data Hd He) as [Hsuccess|Hcatch]; [|by left].
      right. right. by exists data. }
  split_and!; try done.
  - destruct Hcases as [?|[(? & ? & ? & ?)|(? & ? & ? & ?)]]; auto.
  - intros Herr. destruct Hcases as [?|[(data & ? & ? & ?)|(? & ? & ? & ?)]];
      [by destruct Hec|by exists data|by destruct Hes].
  - intros Hsuc. destruct Hcases as [?|[(? & ? & ? & ?)|(data & ? & ? & ?)]];
      [by destruct Hsc|by destruct Hes|by exists data].
Qed.

(** A decoded response that is not an object is never rendered: on [null]
    the read of [error] throws, and on a boolean, a number, a string or an
    array the read of [entities] on the missing first section throws; the
    panel gets the line of [catch] for that TypeError. *)
Theorem non_object_response (rt : runtime) (data : value) :
  (∀ props, data ≠ VObj props) →
  then_handler rt data =
    (if nullish data then (["error"], Throw (TypeError rt data "error"))
     else (["error"; "entity_extraction"; "entities"],
           Throw (TypeError rt VUndefined "entities")))
  ∧ settle rt (Parsed data) =
      catch_handler (if nullish data then TypeError rt data "error"
                     else TypeError rt VUndefined "entities").
Proof.
  intros Hno.
  assert (then_handler rt data =
            (if nullish data then (["error"], Throw (TypeError rt data "error"))
             else (["error"; "entity_extraction"; "entities"],
                   Throw (TypeError rt VUndefined "entities")))) as Hthen.
  { destruct data as [| |b|x|s|items|props]; try reflexivity. by destruct (Hno props). }
  split; [done|]. apply settle_throw. rewrite Hthen. by destruct (nullish data).
Qed.

Lemma non_object_response_string :
  then_handler Sample.V8 Cases.string_response =
    (["error"; "entity_extraction"; "entities"],
     Throw (TypeError Sample.V8 VUndefined "entities"))
  ∧ settle Sample.V8 (Parsed Cases.string_response) =
      catch_handler (TypeError Sample.V8 VUndefined "entities").
Proof.
  apply (non_object_response Sample.V8 Cases.string_response). intros props. discriminate.
Defined.

Lemma Array_join_normal (f : value → completion string) (items : list value) :
  (∃ text, Array_join f items = Normal text)
  ↔ Forall (λ x, nullish x = true ∨ ∃ text, f x = Normal text) items.
Proof.
  induction items as [|x items IH]; cbn.
  - split; [constructor|by eexists].
  - rewrite Forall_cons, <-IH. clear IH. split.
    + intros [text H]. destruct (nullish x) eqn:Hx.
      * rewrite bind_Normal in H. split; [by left|].
        destruct items; [by eexists|].
        destruct (Array_join f (_ :: _)); [by eexists|done].
      * destruct (f x) as [element|]; [|done]. rewrite bind_Normal in H.
        split; [right; by eexists|].
        destruct items; [by eexists|].
        destruct (Array_join f (_ :: _)); [by eexists|done].
    + intros [Hx [tail Htail]].
      assert (∃ element, (if nullish x then Normal "" else f x) = Normal element)
        as [element ->].
      { destruct (nullish x); [by eexists|]. by destruct Hx. }
      rewrite bind_Normal. destruct items; [by eexists|].
      rewrite Htail. by eexists.
Qed.

(** A value has a string, so that a template literal does not throw on it,
    exactly when no object the conversion reaches (the value itself or an
    element of nested arrays) holds a [toString] property of its own:
    every primitive, every array of them, every other object. *)
Theorem stringifiable_iff (rt : runtime) (v : value) :
  stringifiable v = true ↔ ∃ text, ToString rt v = Normal text.
Proof.
  induction v as [| |[]| | |items IH|props] using value_ind_items; cbn;
    try (split; [by eexists|done]).
  - rewrite Array_join_normal, forallb_forall, Forall_forall.
    rewrite Forall_forall in IH. split.
    + intros Hall x Hx. right. apply IH; [done|]. apply Hall. by apply list_elem_of_In.
    + intros Hall x Hx%list_elem_of_In. destruct (Hall x Hx) as [Hnull|Htext].
      * by destruct x.
      * by apply IH.
  - rewrite bool_decide_eq_true. destruct (props !! "toString").
    + split; [done|by intros [? ?]].
    + split; [by eexists|done].
Qed.

(** Sections that are present but are booleans, numbers, strings or arrays
    are not rejected: the leaves read from them are [undefined], and the
    panel gets the success fragment with the text [undefined] five times. *)
Theorem non_object_sections_render_undefined (rt : runtime)
    (props : gmap string value)
    (entity_extraction sentiment_analysis summarization : value) :
  ToBoolean (default VUndefined (props !! "error")) = false →
  props !! "entity_extraction" = Some entity_extraction →
  props !! "sentiment_analysis" = Some sentiment_analysis →
  props !! "summarization" = Some summarization →
  primitive_or_array entity_extraction = true →
  primitive_or_array sentiment_analysis = true →
  primitive_or_array summarization = true →
  settle rt (Parsed (VObj props)) =
    success_fragment "undefined" "undefined" "undefined" "undefined" "undefined".
Proof.
  intros He H1 H2 H3 P1 P2 P3.
  assert (∀ section leaf s, props !! section = Some s →
            primitive_or_array s = true →
            interpolation rt (VObj props) section leaf = Normal "undefined") as Hleaf.
  { intros section leaf s Hs Hp. unfold interpolation. cbn [property]. rewrite Hs. cbn.
    by destruct s. }
  apply settle_normal. rewrite (then_handler_sections rt (VObj props) eq_refl He).
  by rewrite !(Hleaf _ _ _ H1 P1), !(Hleaf _ _ _ H2 P2), !(Hleaf _ _ _ H3 P3).
Qed.

Lemma non_object_sections_render_undefined_flat :
  settle Sample.V8 (Parsed (VObj Cases.flat_props)) =
    success_fragment "undefined" "undefined" "undefined" "undefined" "undefined".
Proof.
  exact (non_object_sections_render_undefined Sample.V8 Cases.flat_props
           (VStr "Apple") (VNum 1) (VArr [])
           eq_refl eq_refl eq_refl eq_refl eq_refl eq_refl eq_refl).
Defined.

End ShapeFacts.

(** ** The request body, character by character *)

Module WireFacts.
Import StrFacts Wire.

#[local] Arguments String.append !_ _ / : simpl nomatch.

Lemma all_chars_app (P : ascii → bool) (a b : string) :
  all_chars P (a +:+ b) = all_chars P a && all_chars P b.
Proof. induction a as [|c a IH]; [done|]. cbn. by rewrite IH, andb_assoc. Qed.

Lemma quote_char_not_control (c : ascii) : all_chars not_control (quote_char c) = true.
Proof. destruct c as [[] [] [] [] [] [] [] []]; reflexivity. Qed.

Lemma quote_chars_not_control (t : string) :
  all_chars not_control (quote_chars t) = true.
Proof.
  induction t as [|c t IH]; [done|].
  cbn [quote_chars]. by rewrite all_chars_app, quote_char_not_control, IH.
Qed.

(** Whatever the text, line breaks, tabs and other control characters
    included, the body holds no control character: they all leave as
    escapes. *)
Theorem body_has_no_control_character (t : string) :
  all_chars not_control (JSON_stringify_document t) = true.
Proof.
  unfold JSON_stringify_document, QuoteJSONString.
  rewrite !all_chars_app. cbn. rewrite !all_chars_app, quote_chars_not_control.
  reflexivity.
Qed.

Lemma quote_char_plain (c : ascii) : plain_char c = true → quote_char c = String c "".
Proof. destruct c as [[] [] [] [] [] [] [] []]; intros H; try reflexivity; discriminate H. Qed.

Lemma quote_chars_plain (t : string) : all_chars plain_char t = true → quote_chars t = t.
Proof.
  induction t as [|c t IH]; [done|]. cbn.
  intros [Hc Ht]%andb_true_iff. by rewrite (quote_char_plain c Hc), IH.
Qed.

(** A text of 8-bit code units (the strings of this model: no surrogate
    can occur) without quotes, backslashes and control characters is sent
    as it is, between the quotes of the [document] property. *)
Theorem plain_text_is_sent_verbatim (t : string) :
  all_chars plain_char t = true →
  JSON_stringify_document t =
    "{" +:+ String dquote "document" +:+ String dquote ":"
        +:+ String dquote (t +:+ String dquote "}").
Proof.
  intros Ht. unfold JSON_stringify_document, QuoteJSONString.
  rewrite (quote_chars_plain t Ht). cbn. rewrite (app_assoc t). reflexivity.
Qed.

Lemma plain_text_is_sent_verbatim_apple :
  JSON_stringify_document "Apple announced record profits." =
    "{" +:+ String dquote "document" +:+ String dquote ":"
        +:+ String dquote ("Apple announced record profits." +:+ String dquote "}").
Proof.
  exact (plain_text_is_sent_verbatim "Apple announced record profits." eq_refl).
Defined.

Lemma unquote_char (c : ascii) (rest : string) :
  unquote_chars (quote_char c +:+ rest) = String c (unquote_chars rest).
Proof.
  destruct c as [[] [] [] [] [] [] [] []];
    cbv -[unquote_chars]; cbn [unquote_chars]; cbv -[unquote_chars]; reflexivity.
Qed.

(** The text survives the trip: the body is the [document] property
    followed by a quoted string, and reading that string back, escape by
    escape up to its closing quote, gives the text, with its quotes,
    backslashes and control characters. *)
Theorem body_round_trip (t : string) :
  ∃ quoted,
    JSON_stringify_document t =
      "{" +:+ String dquote "document" +:+ String dquote ":" +:+ String dquote quoted
    ∧ unquote_chars quoted = t.
Proof.
  exists (quote_chars t +:+ String dquote "}"). split.
  - unfold JSON_stringify_document, QuoteJSONString. cbn.
    rewrite (app_assoc (quote_chars t)). reflexivity.
  - induction t as [|c t IH]; [done|].
    cbn [quote_chars]. by rewrite app_assoc, unquote_char, IH.
Qed.

End WireFacts.
